(** * gpsd-threaded: a shallow embedding of [gpsresponse.py] and [threadedclient.py]

    The decoded gpsd report (a Python dict) is a record whose fields are
    [option]s: [None] is a key absent from the dict, so an unguarded
    [packet['k']] on it raises [KeyError].  Floats are modelled as [Q]
    (the code only compares and copies them, it never computes with them).
    [GpsResponse] methods mutate [self] in place and may raise half way, so
    they run in a state monad over [GpsResponse] whose result is either the
    raised exception or a value; the state is kept in both cases. *)

From Stdlib Require Import QArith Qabs ZArith List.
From stdpp Require Import base gmap strings list.

Open Scope Z_scope.
#[local] Set Warnings "-register-all".

(** ** Exceptions raised by the code *)
Inductive exn :=
| NoFixError          (** [NoFixError("Needs at least ...")] *)
| UserWarning         (** [UserWarning('GPS not active')] in [parse_poll] *)
| KeyError            (** unguarded [d['k']] on a missing key *)
| IndexError          (** [l[-1]] on an empty list *)
| AttributeError      (** attribute lookup on an object lacking it *)
| ValueError.         (** [strptime] on a string not in the format *)

(** ** Decoded gpsd reports *)
Record satellite := Satellite {
  used : option bool
}.

Inductive packet := Packet {
  p_class : option string;
  p_mode : option Z;
  p_lon : option Q;
  p_lat : option Q;
  p_track : option Q;
  p_speed : option Q;
  p_time : option string;
  p_eps : option Q;
  p_ept : option Q;
  p_epx : option Q;
  p_epy : option Q;
  p_alt : option Q;
  p_climb : option Q;
  p_epc : option Q;
  p_epv : option Q;
  p_satellites : option (list satellite);
  p_heading : option Q;
  p_pitch : option Q;
  p_roll : option Q;
  p_active : option bool;
  p_tpv : option (list packet);
  p_sky : option (list packet)
}.

(** The empty dict; concrete reports are built from it with [set_*]. *)
Definition empty_packet : packet :=
  Packet None None None None None None None None None None None None None
    None None None None None None None None None.

(** ** [GpsResponse] *)
Record GpsResponse := MkGpsResponse {
  mode : Z;
  sats : nat;
  sats_valid : nat;
  lon : Q;
  lat : Q;
  alt : Q;
  track : Q;
  hspeed : Q;
  climb : Q;
  time : string;
  error : gmap string Q;
  heading : Q;
  pitch : Q;
  roll : Q
}.

(** [GpsResponse.__init__] *)
Definition init : GpsResponse :=
  MkGpsResponse 0 0 0 0 0 0 0 0 0 "" ∅ 0 0 0.

(** Python's [a < b] on floats. *)
Definition py_lt (a b : Q) : bool := negb (Qle_bool b a).

(** ** The in-place mutation monad

    A method call on [self] returns the mutated [self] together with either
    the exception it raised or its result.  A raise keeps the mutations made
    before it, as Python does. *)
Definition PyM (A : Type) : Type := GpsResponse -> GpsResponse * (exn + A).

Global Instance PyM_ret : MRet PyM := fun A x s => (s, inr x).
Global Instance PyM_bind : MBind PyM := fun A B f m s =>
  match m s with
  | (s', inl e) => (s', inl e)
  | (s', inr a) => f a s'
  end.

Definition raise {A} (e : exn) : PyM A := fun s => (s, inl e).
Definition modify (f : GpsResponse -> GpsResponse) : PyM unit :=
  fun s => (f s, inr tt).

(** [d['k']]: [KeyError] when the key is absent. *)
Definition key {A} (o : option A) : PyM A :=
  match o with Some x => mret x | None => raise KeyError end.

(** [l[-1]]: [IndexError] on an empty list. *)
Definition last_of {A} (l : list A) : PyM A :=
  match last l with Some x => mret x | None => raise IndexError end.

(** ** [GpsResponse.parse_tpv] *)

(** the [self.error = {...}] literal of a 2D-or-better report *)
Definition error_dict (c s t v x y : Q) : gmap string Q :=
  <["c" := c]> (<["s" := s]> (<["t" := t]> (<["v" := v]>
    (<["x" := x]> (<["y" := y]> ∅))))).

Definition set_mode (m : Z) (g : GpsResponse) : GpsResponse :=
  MkGpsResponse m (sats g) (sats_valid g) (lon g) (lat g) (alt g) (track g)
    (hspeed g) (climb g) (time g) (error g) (heading g) (pitch g) (roll g).

(** lines 77-89 *)
Definition tpv_2d (p : packet) (g : GpsResponse) : GpsResponse :=
  MkGpsResponse (mode g) (sats g) (sats_valid g)
    (default 0%Q (p_lon p)) (default 0%Q (p_lat p)) (alt g)
    (default 0%Q (p_track p)) (default 0%Q (p_speed p)) (climb g)
    (default "" (p_time p))
    (error_dict 0%Q (default 0%Q (p_eps p)) (default 0%Q (p_ept p)) 0%Q
       (default 0%Q (p_epx p)) (default 0%Q (p_epy p)))
    (heading g) (pitch g) (roll g).

(** lines 92-95 *)
Definition tpv_3d (p : packet) (g : GpsResponse) : GpsResponse :=
  MkGpsResponse (mode g) (sats g) (sats_valid g) (lon g) (lat g)
    (default 0%Q (p_alt p)) (track g) (hspeed g) (default 0%Q (p_climb p))
    (time g)
    (<["v" := default 0%Q (p_epv p)]> (<["c" := default 0%Q (p_epc p)]> (error g)))
    (heading g) (pitch g) (roll g).

Definition parse_tpv (p : packet) : PyM unit :=
  m ← key (p_mode p);
  modify (set_mode m);;
  (if 2 <=? m then modify (tpv_2d p) else mret tt);;
  (if 3 <=? m then modify (tpv_3d p) else mret tt).

(** ** [GpsResponse.parse_sky] *)

(** [len([sat for sat in sats if sat['used'] == True])] *)
Fixpoint count_used (l : list satellite) : PyM nat :=
  match l with
  | [] => mret 0%nat
  | sat :: l' =>
      u ← key (used sat);
      n ← count_used l';
      mret (if (u : bool) then S n else n)
  end.

Definition set_sats (n : nat) (g : GpsResponse) : GpsResponse :=
  MkGpsResponse (mode g) n (sats_valid g) (lon g) (lat g) (alt g) (track g)
    (hspeed g) (climb g) (time g) (error g) (heading g) (pitch g) (roll g).

Definition set_sats_valid (n : nat) (g : GpsResponse) : GpsResponse :=
  MkGpsResponse (mode g) (sats g) n (lon g) (lat g) (alt g) (track g)
    (hspeed g) (climb g) (time g) (error g) (heading g) (pitch g) (roll g).

Definition parse_sky (p : packet) : PyM unit :=
  match p_satellites p with
  | Some l =>
      modify (set_sats (length l));;
      n ← count_used l;
      modify (set_sats_valid n)
  | None =>
      modify (set_sats 0%nat);;
      modify (set_sats_valid 0%nat)
  end.

(** ** [GpsResponse.parse_att] *)
Definition parse_att (p : packet) : PyM unit :=
  modify (fun g =>
    MkGpsResponse (mode g) (sats g) (sats_valid g) (lon g) (lat g) (alt g)
      (track g) (hspeed g) (climb g) (time g) (error g)
      (default 0%Q (p_heading p)) (default 0%Q (p_pitch p)) (default 0%Q (p_roll p))).

(** ** [GpsResponse.parse_poll] *)
Definition parse_poll (p : packet) : PyM unit :=
  a ← key (p_active p);
  if negb a then raise UserWarning else
  ts ← key (p_tpv p);
  t ← last_of ts;
  parse_tpv t;;
  ss ← key (p_sky p);
  s ← last_of ss;
  parse_sky s.

(** ** [GpsResponse.parse_packet] *)
Definition parse_packet (p : packet) : PyM unit :=
  c ← key (p_class p);
  if String.eqb c "POLL" then parse_poll p
  else if String.eqb c "TPV" then parse_tpv p
  else if String.eqb c "SKY" then parse_sky p
  else if String.eqb c "ATT" then parse_att p
  else mret tt.

(** ** Derived accessors (pure reads of [self]) *)

(** [GpsResponse.position] *)
Definition position (g : GpsResponse) : exn + (Q * Q) :=
  if mode g <? 2 then inl NoFixError else inr (lat g, lon g).

(** [GpsResponse.altitude] *)
Definition altitude (g : GpsResponse) : exn + Q :=
  if mode g <? 3 then inl NoFixError else inr (alt g).

(** the dict [{"speed": ..., "track": ..., "climb": ...}] *)
Record movement_dict := Movement { mv_speed : Q; mv_track : Q; mv_climb : Q }.

(** [GpsResponse.movement] *)
Definition movement (g : GpsResponse) : exn + movement_dict :=
  if mode g <? 3 then inl NoFixError
  else inr (Movement (hspeed g) (track g) (climb g)).

(** [self.error['k']] *)
Definition error_at (g : GpsResponse) (k : string) : exn + Q :=
  match error g !! k with Some v => inr v | None => inl KeyError end.

(** [GpsResponse.speed_vertical] *)
Definition speed_vertical (g : GpsResponse) : exn + Q :=
  if mode g <? 2 then inl NoFixError else
  match error_at g "c" with
  | inl e => inl e
  | inr c => if py_lt (Qabs (climb g)) c then inr 0%Q else inr (climb g)
  end.

(** [GpsResponse.speed] *)
Definition speed (g : GpsResponse) : exn + Q :=
  if mode g <? 2 then inl NoFixError else
  match error_at g "s" with
  | inl e => inl e
  | inr s => if py_lt (hspeed g) s then inr 0%Q else inr (hspeed g)
  end.

(** Python's two-argument [max]: the first argument unless the second is
    strictly greater. *)
Definition py_max (a b : Q) : Q := if py_lt a b then b else a.

(** [GpsResponse.position_precision]; the operands are evaluated left to
    right, [error['x']], [error['y']], then [error['v']]. *)
Definition position_precision (g : GpsResponse) : exn + (Q * Q) :=
  if mode g <? 2 then inl NoFixError else
  match error_at g "x", error_at g "y", error_at g "v" with
  | inr x, inr y, inr v => inr (py_max x y, v)
  | inl e, _, _ | inr _, inl e, _ | inr _, inr _, inl e => inl e
  end.

(** The value [get_time] returns: [datetime.datetime.now().isoformat()]
    (a string) or the [datetime] parsed by [strptime]. *)
Inductive timeval (D : Type) :=
| TvIso (s : string)
| TvDatetime (d : D).
Arguments TvIso {D} s.
Arguments TvDatetime {D} d.

(** [GpsResponse.get_time].  [strptime] stands for
    [datetime.datetime.strptime(_, gpsTimeFormat)] ([None]: the string does
    not match the format, and [strptime] raises [ValueError]) and
    [now_iso] for [datetime.datetime.now().isoformat()].  The [local_time]
    branch evaluates [time.replace(...)], where [time] is the module imported
    on line 1 of [gpsresponse.py], not [rval]: the module has no attribute
    [replace], so the attribute lookup raises [AttributeError]. *)
Definition get_time {D : Type} (strptime : string -> option D) (now_iso : string)
    (g : GpsResponse) (local_time : bool) : exn + timeval D :=
  if mode g <? 2 then inl NoFixError else
  let rval :=
    if String.eqb (time g) "" then inr (TvIso now_iso)
    else match strptime (time g) with
         | None => inl ValueError
         | Some d => inr (TvDatetime d)
         end in
  match rval with
  | inl e => inl e
  | inr r => if local_time then inl AttributeError else inr r
  end.

(** ** Applying a sequence of reports

    [run_reports g rs] is the [GpsResponse] after [parse_packet] has been
    called on each report of [rs] in turn, the state after a raising call
    included. *)
Definition apply_report (g : GpsResponse) (p : packet) : GpsResponse :=
  fst (parse_packet p g).

Definition run_reports (g : GpsResponse) (rs : list packet) : GpsResponse :=
  fold_left apply_report rs g.

(** The states reachable from [GpsResponse()]. *)
Definition reachable (g : GpsResponse) : Prop :=
  exists rs, g = run_reports init rs.

(** ** Sample reports *)

(** [{"class": "TPV", "mode": m, "alt": .., "climb": .., "epc": .., "epv": ..}] *)
Definition mk_tpv (m : Z) (alt climb epc epv : option Q) : packet :=
  Packet (Some "TPV") (Some m) None None None None None None None None None
    alt climb epc epv None None None None None None None.

(** [{"class": "SKY", "satellites": sats}] *)
Definition mk_sky (sats : option (list satellite)) : packet :=
  Packet (Some "SKY") None None None None None None None None None None None
    None None None sats None None None None None None.

(** [{"class": "POLL", "active": a, "tpv": tpv, "sky": sky}] *)
Definition mk_poll (a : option bool) (tpv sky : option (list packet)) : packet :=
  Packet (Some "POLL") None None None None None None None None None None None
    None None None None None None None a tpv sky.

(** [n] satellites of which the first [u] are flagged used *)
Definition sat_list (n u : nat) : list satellite :=
  repeat (Satellite (Some true)) u ++ repeat (Satellite (Some false)) (n - u).

(** ** [ThreadedClient]: the reader thread and the [get_current] callers

    A small-step interleaving model.  The thread [run] takes the lock,
    calls [self._gps.parse_packet(result)] and releases the lock; while it
    holds the lock it mutates [_gps] in place, so [_gps] may pass through
    any intermediate value ([w_mutate] lets it be anything).  When the call
    raises, the [with] block releases the lock and the exception leaves
    [run] (only [ConnectionRefusedError] is caught), so the thread is done.
    A caller of [get_current] takes the lock, [deepcopy]s [_gps] and
    releases it.  [applied] records the reports handed to [parse_packet],
    in order. *)
Module ThreadedClient.

Inductive owner := Writer | Reader (n : nat).

Inductive writer_pc :=
| WIdle                                   (** between reports *)
| WInCS (r : packet) (g0 : GpsResponse)   (** inside [with self._lock:],
                                             [g0] the [_gps] it started on *)
| WDone.                                  (** [run] has returned *)

Record client := Client {
  gps : GpsResponse;
  lock : option owner;
  writer : writer_pc;
  applied : list packet;
  snapshots : list GpsResponse
}.

Definition start : client := Client init None WIdle [] [].

Inductive step : client -> client -> Prop :=
| w_acquire r g a ss :
    step (Client g None WIdle a ss) (Client g (Some Writer) (WInCS r g) a ss)
| w_mutate r g0 g g' a ss :
    step (Client g (Some Writer) (WInCS r g0) a ss)
         (Client g' (Some Writer) (WInCS r g0) a ss)
| w_release r g0 g a ss :
    step (Client g (Some Writer) (WInCS r g0) a ss)
         (Client (fst (parse_packet r g0)) None
            (match snd (parse_packet r g0) with
             | inl _ => WDone
             | inr _ => WIdle
             end)
            (a ++ [r]) ss)
| w_stop g l a ss :
    step (Client g l WIdle a ss) (Client g l WDone a ss)
| r_acquire n g w a ss :
    step (Client g None w a ss) (Client g (Some (Reader n)) w a ss)
| r_copy n g w a ss :
    step (Client g (Some (Reader n)) w a ss)
         (Client g (Some (Reader n)) w a (ss ++ [g]))
| r_release n g w a ss :
    step (Client g (Some (Reader n)) w a ss) (Client g None w a ss).

(** A snapshot taken from a complete prefix of the applied reports. *)
Definition prefix_state (a : list packet) (g : GpsResponse) : Prop :=
  exists k, (k <= length a)%nat /\ g = run_reports init (take k a).

Definition inv (c : client) : Prop :=
  (lock c = Some Writer <-> exists r g0, writer c = WInCS r g0) /\
  (forall r g0, writer c = WInCS r g0 -> g0 = run_reports init (applied c)) /\
  (lock c <> Some Writer -> gps c = run_reports init (applied c)) /\
  Forall (prefix_state (applied c)) (snapshots c).

End ThreadedClient.

(** ** More of [GpsResponse] *)

(** [GpsResponse.get_heading], [get_pitch], [get_roll] *)
Definition get_heading (g : GpsResponse) : Q := heading g.
Definition get_pitch (g : GpsResponse) : Q := pitch g.
Definition get_roll (g : GpsResponse) : Q := roll g.

(** [GpsResponse.map_url]; [str_float] is Python's [str] on a float, which
    [format] applies to each [{}]. *)
Definition map_url (str_float : Q -> string) (g : GpsResponse) : exn + string :=
  if mode g <? 2 then inl NoFixError
  else inr (String.append "http://www.openstreetmap.org/?mlat="
             (String.append (str_float (lat g))
               (String.append "&mlon="
                 (String.append (str_float (lon g)) "&zoom=15")))).

(** [GpsResponse.from_json]: [cls()] then [parse_packet]; an exception
    leaves [from_json] and the half-built object is lost. *)
Definition from_json (p : packet) : exn + GpsResponse :=
  match parse_packet p init with
  | (_, inl e) => inl e
  | (g, inr _) => inr g
  end.

(** the [modes] dict of [GpsResponse.__repr__] *)
Definition modes (m : Z) : option string :=
  match m with
  | 0 => Some "No mode"
  | 1 => Some "No fix"
  | 2 => Some "2D fix"
  | 3 => Some "3D fix"
  | _ => None
  end.

(** [GpsResponse.__repr__]: [inr None] is the implicit [return None] when
    no [if] matches. *)
Definition py_repr (str_float : Q -> string) (g : GpsResponse)
    : exn + option string :=
  if mode g <? 2 then
    match modes (mode g) with
    | Some s => inr (Some (String.append "<GpsResponse " (String.append s ">")))
    | None => inl KeyError
    end
  else if mode g =? 2 then
    inr (Some (String.append "<GpsResponse 2D Fix lat: "
      (String.append (str_float (lat g)) (String.append ", lon: "
      (String.append (str_float (lon g)) (String.append ", heading: "
      (String.append (str_float (heading g)) ">")))))))
  else if mode g =? 3 then
    inr (Some (String.append "<GpsResponse 3D Fix lat: "
      (String.append (str_float (lat g)) (String.append ", lon: "
      (String.append (str_float (lon g)) (String.append ", alt: "
      (String.append (str_float (alt g)) (String.append ", heading: "
      (String.append (str_float (heading g)) (String.append ", pitch: "
      (String.append (str_float (pitch g)) (String.append ", roll: "
      (String.append (str_float (roll g)) ">")))))))))))))
  else inr None.

(** ** [ThreadedClient.run], one thread on its own

    With [_running] true throughout, the loop sees what
    [self._gpsd.dict_stream(...)] yields: a report, handed to
    [parse_packet] under the lock, or a [ConnectionRefusedError], after
    which it sleeps and builds a new [GPSDClient]; [SRefused false] is that
    construction being refused in turn, which is outside the [try] and so
    leaves [run].  An exception from [parse_packet] leaves [run] as well. *)
Inductive stream_event :=
| SReport (p : packet)
| SRefused (reconnected : bool).

Inductive run_end :=
| RunRaised (e : exn)          (** [parse_packet] raised *)
| RunReconnectRefused          (** [GPSDClient(...)] in the handler raised *)
| RunWaiting.                  (** still running, waiting for the stream *)

Fixpoint run_loop (g : GpsResponse) (evs : list stream_event)
    : GpsResponse * run_end :=
  match evs with
  | [] => (g, RunWaiting)
  | SReport p :: evs' =>
      match parse_packet p g with
      | (g', inl e) => (g', RunRaised e)
      | (g', inr _) => run_loop g' evs'
      end
  | SRefused true :: evs' => run_loop g evs'
  | SRefused false :: _ => (g, RunReconnectRefused)
  end.

(** the reports among the events *)
Fixpoint reports_of (evs : list stream_event) : list packet :=
  match evs with
  | [] => []
  | SReport p :: evs' => p :: reports_of evs'
  | SRefused _ :: evs' => reports_of evs'
  end.

(** ** Predicates used in the statements *)

(** the spec's count of satellites flagged used *)
Definition count_flagged (l : list satellite) : nat :=
  length (List.filter (fun s => bool_decide (used s = Some true)) l).

Definition has_used (s : satellite) : Prop := is_Some (used s).

(** every satellite entry of a SKY report carries the [used] key *)
Definition sky_flagged (p : packet) : Prop :=
  forall l, p_satellites p = Some l -> Forall has_used l.

(** the SKY reports a report carries, directly or in a POLL bundle, are
    [sky_flagged] *)
Definition flagged_report (p : packet) : Prop :=
  (p_class p = Some "SKY" -> sky_flagged p) /\
  (p_class p = Some "POLL" -> forall ss, p_sky p = Some ss -> Forall sky_flagged ss).

Definition sats_ok (g : GpsResponse) : Prop := (sats_valid g <= sats g)%nat.

(** ** Properties preserved by every method call

    [preserves P m]: whenever [P] holds of [self] before the call [m], it
    holds after it, whether [m] returned or raised. *)
Definition preserves (P : GpsResponse -> Prop) {A} (m : PyM A) : Prop :=
  forall g, P g -> P (fst (m g)).

Definition error_keys : list string := ["c"; "s"; "t"; "v"; "x"; "y"].

Definition keys_ok (g : GpsResponse) : Prop :=
  2 <= mode g -> Forall (fun k => is_Some (error g !! k)) error_keys.

(** * Lemmas about the embedding *)

(** ** Unfolding the monad *)

Ltac pyunfold :=
  unfold mbind, mret, PyM_bind, PyM_ret, modify, raise, key, last_of in *.

Lemma bind_unfold {A B} (m : PyM A) (f : A -> PyM B) g :
  (m ≫= f) g = match m g with
               | (g', inl e) => (g', inl e)
               | (g', inr a) => f a g'
               end.
Proof. reflexivity. Qed.

Lemma parse_tpv_eq p g :
  parse_tpv p g =
  match p_mode p with
  | None => (g, inl KeyError)
  | Some m =>
      let g1 := set_mode m g in
      let g2 := if 2 <=? m then tpv_2d p g1 else g1 in
      ((if 3 <=? m then tpv_3d p g2 else g2), inr tt)
  end.
Proof.
  unfold parse_tpv. pyunfold. destruct (p_mode p) as [m|]; [|reflexivity].
  cbn. destruct (2 <=? m), (3 <=? m); reflexivity.
Qed.

Lemma count_used_state l g : fst (count_used l g) = g.
Proof.
  induction l as [|[u] l IH]; [reflexivity|].
  cbn. pyunfold. destruct u as [u|]; [|reflexivity]. cbn.
  destruct (count_used l g) as [g' [e|n]] eqn:E; cbn in *; congruence.
Qed.


Lemma count_used_flagged l g :
  Forall has_used l -> count_used l g = (g, inr (count_flagged l)).
Proof.
  induction 1 as [|[u] l [b Hb] _ IH]; [reflexivity|].
  cbn in Hb. subst u. cbn. pyunfold. rewrite IH. cbn.
  unfold count_flagged. cbn. destruct b; reflexivity.
Qed.

Lemma count_used_missing l g :
  ~ Forall has_used l -> count_used l g = (g, inl KeyError).
Proof.
  induction l as [|[u] l IH]; intros Hn.
  - exfalso. apply Hn. constructor.
  - destruct u as [b|]; [|reflexivity]. cbn. pyunfold.
    rewrite IH; [reflexivity|].
    intros Hl. apply Hn. constructor; [eexists; reflexivity|exact Hl].
Qed.

Lemma count_flagged_le l : (count_flagged l <= length l)%nat.
Proof. unfold count_flagged. apply List.filter_length_le. Qed.

Lemma parse_sky_eq p g :
  parse_sky p g =
  match p_satellites p with
  | None => (set_sats_valid 0 (set_sats 0 g), inr tt)
  | Some l =>
      let g1 := set_sats (length l) g in
      match snd (count_used l g1) with
      | inl e => (g1, inl e)
      | inr n => (set_sats_valid n g1, inr tt)
      end
  end.
Proof.
  unfold parse_sky. pyunfold. destruct (p_satellites p) as [l|]; [|reflexivity].
  cbn. pose proof (count_used_state l (set_sats (length l) g)) as Hs.
  destruct (count_used l (set_sats (length l) g)) as [g' [e|n]]; cbn in *;
    subst; reflexivity.
Qed.


Lemma parse_poll_preserves (P : GpsResponse -> Prop) p :
  (forall t, preserves P (parse_tpv t)) ->
  (forall ss s, p_sky p = Some ss -> last ss = Some s ->
     preserves P (parse_sky s)) ->
  preserves P (parse_poll p).
Proof.
  intros Htpv Hsky g Hg. unfold parse_poll. pyunfold.
  destruct (p_active p) as [[]|]; cbn; [|exact Hg|exact Hg].
  destruct (p_tpv p) as [ts|]; cbn; [|exact Hg].
  destruct (last ts) as [t|]; cbn; [|exact Hg].
  pose proof (Htpv t g Hg) as Hg1.
  destruct (parse_tpv t g) as [g1 [e|[]]]; cbn in *; [exact Hg1|].
  destruct (p_sky p) as [ss|] eqn:Ess; cbn; [|exact Hg1].
  destruct (last ss) as [s|] eqn:Es; cbn; [|exact Hg1].
  exact (Hsky ss s eq_refl Es g1 Hg1).
Qed.

Lemma parse_packet_preserves (P : GpsResponse -> Prop) p :
  (forall t, preserves P (parse_tpv t)) ->
  (forall t, preserves P (parse_att t)) ->
  (p_class p = Some "SKY" -> preserves P (parse_sky p)) ->
  (p_class p = Some "POLL" -> forall ss s, p_sky p = Some ss ->
     last ss = Some s -> preserves P (parse_sky s)) ->
  preserves P (parse_packet p).
Proof.
  intros Htpv Hatt Hsky Hpoll g Hg. unfold parse_packet. pyunfold.
  destruct (p_class p) as [c|] eqn:Ec; cbn; [|exact Hg].
  destruct (String.eqb c "POLL") eqn:E1.
  { apply String.eqb_eq in E1. subst c.
    apply parse_poll_preserves; [exact Htpv|exact (Hpoll eq_refl)|exact Hg]. }
  destruct (String.eqb c "TPV") eqn:E2; [apply Htpv; exact Hg|].
  destruct (String.eqb c "SKY") eqn:E3.
  { apply String.eqb_eq in E3. subst c. exact (Hsky eq_refl g Hg). }
  destruct (String.eqb c "ATT") eqn:E4; [apply Hatt; exact Hg|exact Hg].
Qed.

Lemma run_reports_preserves (P : GpsResponse -> Prop) rs g :
  (forall p, In p rs -> preserves P (parse_packet p)) ->
  P g -> P (run_reports g rs).
Proof.
  revert g. induction rs as [|p rs IH]; intros g Hp Hg; [exact Hg|].
  cbn. apply IH.
  - intros q Hq. apply Hp. right. exact Hq.
  - apply (Hp p (or_introl eq_refl)). exact Hg.
Qed.

(** ** The error-margin keys at 2D or better *)

Lemma error_dict_keys c s t v x y :
  Forall (fun k => is_Some (error_dict c s t v x y !! k)) error_keys.
Proof.
  repeat (apply List.Forall_cons; [eexists; reflexivity|]). apply List.Forall_nil.
Qed.

Lemma parse_tpv_keys_ok t : preserves keys_ok (parse_tpv t).
Proof.
  intros g Hg. rewrite parse_tpv_eq.
  destruct (p_mode t) as [m|]; cbn; [|exact Hg].
  intros Hm.
  destruct (2 <=? m) eqn:E2, (3 <=? m) eqn:E3; cbn in Hm |- *;
    [| apply error_dict_keys
     | apply Z.leb_gt in E2; apply Z.leb_le in E3; lia
     | apply Z.leb_gt in E2; lia].
  pose proof (error_dict_keys 0%Q (default 0%Q (p_eps t)) (default 0%Q (p_ept t))
                0%Q (default 0%Q (p_epx t)) (default 0%Q (p_epy t))) as Hd.
  eapply Forall_impl; [exact Hd|]. intros k Hk.
  apply lookup_insert_is_Some'. right.
  apply lookup_insert_is_Some'. right. exact Hk.
Qed.

Lemma parse_sky_keys_ok s : preserves keys_ok (parse_sky s).
Proof.
  intros g Hg. rewrite parse_sky_eq.
  destruct (p_satellites s) as [l|]; cbn; [|exact Hg].
  destruct (snd (count_used l (set_sats (length l) g))); exact Hg.
Qed.

Lemma parse_att_keys_ok t : preserves keys_ok (parse_att t).
Proof. intros g Hg. exact Hg. Qed.

Lemma reachable_keys_ok g : reachable g -> keys_ok g.
Proof.
  intros [rs ->]. apply run_reports_preserves.
  - intros p _. apply parse_packet_preserves.
    + apply parse_tpv_keys_ok.
    + apply parse_att_keys_ok.
    + intros _. apply parse_sky_keys_ok.
    + intros _ ss s _ _. apply parse_sky_keys_ok.
  - intros Hm. cbn in Hm. lia.
Qed.

(** ** The exceptions [parse_tpv] and [parse_sky] may raise *)

Lemma count_used_exn l g e : snd (count_used l g) = inl e -> e = KeyError.
Proof.
  induction l as [|[u] l IH] in e |- *; cbn; pyunfold; [discriminate|].
  destruct u as [b|]; cbn; [|congruence].
  pose proof (count_used_state l g) as Hs.
  destruct (count_used l g) as [g' [e'|n]] eqn:E; cbn in *.
  - intros H. injection H as <-. apply IH. reflexivity.
  - discriminate.
Qed.

Lemma parse_tpv_exn t g e : snd (parse_tpv t g) = inl e -> e = KeyError.
Proof.
  rewrite parse_tpv_eq. destruct (p_mode t); cbn; congruence.
Qed.

Lemma parse_sky_exn s g e : snd (parse_sky s g) = inl e -> e = KeyError.
Proof.
  rewrite parse_sky_eq. destruct (p_satellites s) as [l|]; cbn; [|discriminate].
  destruct (snd (count_used l (set_sats (length l) g))) as [e'|n] eqn:E;
    cbn; [|discriminate].
  intros H. injection H as <-. eapply count_used_exn. exact E.
Qed.

(** ** [sats_valid <= sats] *)

Lemma parse_tpv_sats_ok t : preserves sats_ok (parse_tpv t).
Proof.
  intros g Hg. rewrite parse_tpv_eq.
  destruct (p_mode t) as [m|]; cbn; [|exact Hg].
  destruct (2 <=? m), (3 <=? m); exact Hg.
Qed.

Lemma parse_att_sats_ok t : preserves sats_ok (parse_att t).
Proof. intros g Hg. exact Hg. Qed.

Lemma parse_sky_sats_ok s : sky_flagged s -> preserves sats_ok (parse_sky s).
Proof.
  intros Hs g _. rewrite parse_sky_eq.
  destruct (p_satellites s) as [l|] eqn:El; cbn; [|unfold sats_ok; cbn; lia].
  rewrite count_used_flagged by exact (Hs l El). cbn.
  unfold sats_ok. cbn. apply count_flagged_le.
Qed.

Lemma run_reports_sats_ok rs :
  Forall flagged_report rs -> sats_ok (run_reports init rs).
Proof.
  intros Hrs. apply run_reports_preserves; [|unfold sats_ok; cbn; lia].
  intros p Hp. rewrite Forall_forall in Hrs.
  destruct (Hrs p (proj2 (list_elem_of_In _ _) Hp)) as [Hsky Hpoll].
  apply parse_packet_preserves.
  - apply parse_tpv_sats_ok.
  - apply parse_att_sats_ok.
  - intros Hc. apply parse_sky_sats_ok, Hsky, Hc.
  - intros Hc ss s Hss Hl. apply parse_sky_sats_ok.
    specialize (Hpoll Hc ss Hss). rewrite Forall_forall in Hpoll.
    apply Hpoll. apply last_Some_elem_of. exact Hl.
Qed.

(** * The claims *)

(** ** C1 *)

(** C1 (counterexample): after a mode-3 report carrying [alt = 100] and a
    mode-1 report, [altitude()] does not return 100: it raises
    [NoFixError]. *)
Lemma altitude_after_mode1_counterexample :
  let g := run_reports init [mk_tpv 3 (Some 100%Q) None None None;
                             mk_tpv 1 None None None None] in
  altitude g <> inr 100%Q.
Proof. cbv zeta. vm_compute. discriminate. Qed.

(** C1 (amended): after a mode-3 report and then a mode-1 report, the
    [alt] field still holds the altitude of the mode-3 report (0 when it
    carried none), while both [altitude()] and [movement()] raise
    [NoFixError] since the fix quality is now 1. *)
Theorem altitude_stale_after_mode1 (g : GpsResponse) (p3 p1 : packet) :
  p_mode p3 = Some 3 -> p_mode p1 = Some 1 ->
  let g2 := fst (parse_tpv p1 (fst (parse_tpv p3 g))) in
  alt g2 = default 0%Q (p_alt p3) /\
  altitude g2 = inl NoFixError /\ movement g2 = inl NoFixError.
Proof.
  intros H3 H1. cbv zeta.
  rewrite (parse_tpv_eq p3), H3. cbn.
  rewrite (parse_tpv_eq p1), H1. cbn.
  repeat split; reflexivity.
Qed.

Lemma altitude_stale_after_mode1_witness :
  let p3 := mk_tpv 3 (Some 100%Q) None None None in
  let p1 := mk_tpv 1 None None None None in
  p_mode p3 = Some 3 /\ p_mode p1 = Some 1 /\
  alt (fst (parse_tpv p1 (fst (parse_tpv p3 init)))) = 100%Q.
Proof.
  cbv zeta. split; [reflexivity|]. split; [reflexivity|].
  apply (altitude_stale_after_mode1 init (mk_tpv 3 (Some 100%Q) None None None)
           (mk_tpv 1 None None None None)); reflexivity.
Defined.

(** ** C2 *)

(** C2 (counterexample): a 3D report with [epc = 1], [epv = 2] followed by
    a 2D report: the 2D report changes the stored climb and vertical
    margins (to 0). *)
Lemma error_2d_resets_counterexample :
  let g1 := run_reports init [mk_tpv 3 None None (Some 1%Q) (Some 2%Q)] in
  let g2 := fst (parse_tpv (mk_tpv 2 None None None None) g1) in
  error g1 !! "c" = Some 1%Q /\ error g1 !! "v" = Some 2%Q /\
  error g2 !! "c" = Some 0%Q /\ error g2 !! "v" = Some 0%Q /\
  error g2 !! "c" <> error g1 !! "c".
Proof.
  cbv zeta. vm_compute. repeat split; try reflexivity. discriminate.
Qed.

(** C2 (amended): a position/velocity report of mode below 2 leaves the
    error margins unchanged; a report of mode exactly 2 replaces the whole
    mapping, with speed, time, lon and lat taken from the report (0 when
    absent) and climb and vertical reset to 0; a report of mode 3 or more
    also takes climb and vertical from the report (0 when absent). *)
Theorem parse_tpv_error (g : GpsResponse) (p : packet) (m : Z) :
  p_mode p = Some m ->
  let e := error (fst (parse_tpv p g)) in
  let eps := default 0%Q (p_eps p) in
  let ept := default 0%Q (p_ept p) in
  let epx := default 0%Q (p_epx p) in
  let epy := default 0%Q (p_epy p) in
  (m < 2 -> e = error g) /\
  (m = 2 -> e = error_dict 0 eps ept 0 epx epy) /\
  (3 <= m -> e = error_dict (default 0%Q (p_epc p)) eps ept
                   (default 0%Q (p_epv p)) epx epy).
Proof.
  intros Hm. cbv zeta. rewrite parse_tpv_eq, Hm. cbn.
  split; [|split]; intros Hr.
  - assert (E2 : (2 <=? m) = false) by (apply Z.leb_gt; lia).
    assert (E3 : (3 <=? m) = false) by (apply Z.leb_gt; lia).
    rewrite E2, E3. reflexivity.
  - subst m. reflexivity.
  - assert (E2 : (2 <=? m) = true) by (apply Z.leb_le; lia).
    assert (E3 : (3 <=? m) = true) by (apply Z.leb_le; lia).
    rewrite E2, E3. cbn. apply map_eq. intros k. unfold error_dict.
    rewrite !lookup_insert.
    repeat case_decide; subst; try congruence; reflexivity.
Qed.

Lemma parse_tpv_error_witness :
  p_mode (mk_tpv 3 None None (Some 1%Q) (Some 2%Q)) = Some 3 /\
  error (fst (parse_tpv (mk_tpv 3 None None (Some 1%Q) (Some 2%Q)) init))
  = error_dict 1 0 0 2 0 0.
Proof.
  split; [reflexivity|].
  apply (parse_tpv_error init (mk_tpv 3 None None (Some 1%Q) (Some 2%Q)) 3);
    [reflexivity|lia].
Defined.

(** ** C3 *)

(** C3 (code bug): at 2D or better, [get_time(local_time=True)] never
    returns a time: it raises an exception other than [NoFixError], and
    when no timestamp was ever received it is the [AttributeError] of
    [time.replace]. *)
Theorem get_time_local_raises {D : Type} (strptime : string -> option D)
    (now_iso : string) (g : GpsResponse) :
  2 <= mode g ->
  (exists e, get_time strptime now_iso g true = inl e /\ e <> NoFixError) /\
  (time g = "" -> get_time strptime now_iso g true = inl AttributeError).
Proof.
  intros Hm. unfold get_time.
  assert (E : (mode g <? 2) = false) by (apply Z.ltb_ge; lia).
  rewrite E. split.
  - destruct (String.eqb (time g) "").
    + exists AttributeError. split; [reflexivity|discriminate].
    + destruct (strptime (time g)) as [d|].
      * exists AttributeError. split; [reflexivity|discriminate].
      * exists ValueError. split; [reflexivity|discriminate].
  - intros ->. reflexivity.
Qed.

Lemma get_time_local_raises_witness :
  let g := fst (parse_tpv (mk_tpv 2 None None None None) init) in
  2 <= mode g /\
  get_time (fun _ : string => @None unit) "2026-10-19T12:00:00" g true
  = inl AttributeError.
Proof.
  cbv zeta. split; [vm_compute; discriminate|].
  apply (get_time_local_raises (fun _ : string => @None unit)
           "2026-10-19T12:00:00"
           (fst (parse_tpv (mk_tpv 2 None None None None) init)));
    [vm_compute; discriminate|reflexivity].
Defined.

(** ** C4 *)

(** C4: [parse_poll] raises [UserWarning] (the inactive-source error)
    exactly when the bundle's [active] flag is false, and then leaves
    [self] as it was; when it is true, it does what [parse_tpv] on the last
    [tpv] entry followed by [parse_sky] on the last [sky] entry does. *)
Theorem parse_poll_inactive (g : GpsResponse) (p : packet) :
  (snd (parse_poll p g) = inl UserWarning <-> p_active p = Some false) /\
  (p_active p = Some false -> fst (parse_poll p g) = g) /\
  (p_active p = Some true ->
   forall ts t ss s, p_tpv p = Some ts -> last ts = Some t ->
   p_sky p = Some ss -> last ss = Some s ->
   parse_poll p g = (parse_tpv t;; parse_sky s) g).
Proof.
  unfold parse_poll. pyunfold.
  split; [|split].
  - split; [|intros ->; reflexivity].
    destruct (p_active p) as [[]|]; cbn; [|reflexivity|discriminate].
    destruct (p_tpv p) as [ts|]; cbn; [|discriminate].
    destruct (last ts) as [t|]; cbn; [|discriminate].
    destruct (parse_tpv t g) as [g1 [e|[]]] eqn:E1; cbn.
    + intros H. injection H as ->.
      pose proof (parse_tpv_exn t g UserWarning) as Hx.
      rewrite E1 in Hx. discriminate (Hx eq_refl).
    + destruct (p_sky p) as [ss|]; cbn; [|discriminate].
      destruct (last ss) as [s|]; cbn; [|discriminate].
      intros H. apply parse_sky_exn in H. discriminate.
  - intros ->. reflexivity.
  - intros Ha ts t ss s Hts Ht Hss Hs.
    rewrite Ha; cbn. rewrite Hts; cbn. rewrite Ht; cbn.
    destruct (parse_tpv t g) as [g1 [e|[]]]; [reflexivity|cbn].
    rewrite Hss; cbn. rewrite Hs. reflexivity.
Qed.

Lemma parse_poll_inactive_witness :
  let p := mk_poll (Some false) (Some [mk_tpv 3 None None None None])
             (Some [mk_sky None]) in
  p_active p = Some false /\ snd (parse_poll p init) = inl UserWarning /\
  fst (parse_poll p init) = init.
Proof.
  cbv zeta. split; [reflexivity|]. split.
  - apply (parse_poll_inactive init
      (mk_poll (Some false) (Some [mk_tpv 3 None None None None])
         (Some [mk_sky None]))). reflexivity.
  - apply (parse_poll_inactive init
      (mk_poll (Some false) (Some [mk_tpv 3 None None None None])
         (Some [mk_sky None]))). reflexivity.
Defined.

(** ** C5 *)

Lemma speed_vertical_after_3d g p m cl ec :
  p_mode p = Some m -> 3 <= m -> p_climb p = Some cl -> p_epc p = Some ec ->
  speed_vertical (fst (parse_tpv p g)) =
  if py_lt (Qabs cl) ec then inr 0%Q else inr cl.
Proof.
  intros Hm H3 Hc He. rewrite parse_tpv_eq, Hm. cbn.
  assert (E2 : (2 <=? m) = true) by (apply Z.leb_le; lia).
  assert (E3 : (3 <=? m) = true) by (apply Z.leb_le; lia).
  rewrite E2, E3. unfold speed_vertical, error_at. cbn.
  assert (E : (m <? 2) = false) by (apply Z.ltb_ge; lia).
  rewrite E, Hc, He.
  rewrite lookup_insert_ne by done. rewrite lookup_insert_eq. reflexivity.
Qed.

(** C5: a 3D report with [climb = 0.05] and [epc = 0.1] makes
    [speed_vertical()] return 0, one with [climb = 0.5] and [epc = 0.1]
    makes it return 0.5, whatever the state before; and in every state
    reachable from [GpsResponse()] at 2D or better, [error['c']] exists and
    [speed_vertical()] returns 0 when [abs(climb) < error['c']] and [climb]
    otherwise. *)
Theorem speed_vertical_clamped :
  (forall g p m, p_mode p = Some m -> 3 <= m ->
     p_climb p = Some (5 # 100) -> p_epc p = Some (1 # 10) ->
     speed_vertical (fst (parse_tpv p g)) = inr 0%Q) /\
  (forall g p m, p_mode p = Some m -> 3 <= m ->
     p_climb p = Some (5 # 10) -> p_epc p = Some (1 # 10) ->
     speed_vertical (fst (parse_tpv p g)) = inr (5 # 10)) /\
  (forall g, reachable g -> 2 <= mode g ->
     exists c, error g !! "c" = Some c /\
       speed_vertical g =
       inr (if py_lt (Qabs (climb g)) c then 0%Q else climb g)).
Proof.
  split; [|split].
  - intros g p m Hm H3 Hc He.
    rewrite (speed_vertical_after_3d g p m _ _ Hm H3 Hc He). reflexivity.
  - intros g p m Hm H3 Hc He.
    rewrite (speed_vertical_after_3d g p m _ _ Hm H3 Hc He). reflexivity.
  - intros g Hr H2. pose proof (reachable_keys_ok g Hr H2) as Hk.
    inversion Hk as [|? ? [c Hc] _]. subst.
    exists c. split; [exact Hc|].
    unfold speed_vertical, error_at.
    assert (E : (mode g <? 2) = false) by (apply Z.ltb_ge; lia).
    rewrite E, Hc. destruct (py_lt (Qabs (climb g)) c); reflexivity.
Qed.

Lemma speed_vertical_clamped_witness :
  speed_vertical
    (fst (parse_tpv (mk_tpv 3 None (Some (5 # 100)) (Some (1 # 10)) None) init))
  = inr 0%Q /\
  speed_vertical
    (fst (parse_tpv (mk_tpv 3 None (Some (5 # 10)) (Some (1 # 10)) None) init))
  = inr (5 # 10) /\
  let g := run_reports init [mk_tpv 3 None (Some (5 # 10)) (Some (1 # 10)) None] in
  exists c, error g !! "c" = Some c /\
    speed_vertical g = inr (if py_lt (Qabs (climb g)) c then 0%Q else climb g).
Proof.
  destruct speed_vertical_clamped as [H1 [H2 H3]]. split; [|split].
  - apply (H1 init _ 3); reflexivity || lia.
  - apply (H2 init _ 3); reflexivity || lia.
  - cbv zeta. apply H3; [eexists; reflexivity|vm_compute; discriminate].
Defined.

(** ** C6 *)

(** C6 (counterexample): after a SKY report with 8 satellites, 5 used, a
    SKY report whose one satellite lacks the [used] key sets [sats] to 1
    but raises [KeyError] before [sats_valid] is set: it stays 5, not the
    0 entries flagged used. *)
Lemma parse_sky_missing_used_counterexample :
  let g1 := run_reports init [mk_sky (Some (sat_list 8 5))] in
  let r := parse_sky (mk_sky (Some [Satellite None])) g1 in
  sats g1 = 8%nat /\ sats_valid g1 = 5%nat /\
  sats (fst r) = 1%nat /\ sats_valid (fst r) = 5%nat /\ snd r = inl KeyError /\
  sats_valid (fst r) <> count_flagged [Satellite None].
Proof. cbv zeta. vm_compute. repeat split; try reflexivity. discriminate. Qed.

(** C6 (amended): a SKY report with a satellite list whose entries all
    carry the [used] key sets [sats] to the list length and [sats_valid] to
    the number of entries flagged used; one without a satellite list sets
    both to 0; one with an entry lacking [used] sets [sats] to the list
    length, keeps [sats_valid] and raises [KeyError].  No other field
    changes in any case. *)
Theorem parse_sky_counts (g : GpsResponse) (p : packet) :
  (forall l, p_satellites p = Some l -> Forall has_used l ->
     parse_sky p g =
     (set_sats_valid (count_flagged l) (set_sats (length l) g), inr tt)) /\
  (forall l, p_satellites p = Some l -> ~ Forall has_used l ->
     parse_sky p g = (set_sats (length l) g, inl KeyError)) /\
  (p_satellites p = None ->
     parse_sky p g = (set_sats_valid 0 (set_sats 0 g), inr tt)).
Proof.
  rewrite parse_sky_eq. split; [|split].
  - intros l -> Hl. cbv zeta. rewrite count_used_flagged by exact Hl.
    reflexivity.
  - intros l -> Hl. cbv zeta. rewrite count_used_missing by exact Hl.
    reflexivity.
  - intros ->. reflexivity.
Qed.

Lemma parse_sky_counts_witness :
  let r := parse_sky (mk_sky (Some (sat_list 8 5))) init in
  let r0 := parse_sky (mk_sky None) (fst r) in
  sats (fst r) = 8%nat /\ sats_valid (fst r) = 5%nat /\
  sats (fst r0) = 0%nat /\ sats_valid (fst r0) = 0%nat.
Proof.
  cbv zeta.
  destruct (parse_sky_counts init (mk_sky (Some (sat_list 8 5))))
    as [H _].
  rewrite (H (sat_list 8 5) eq_refl)
    by (repeat constructor; eexists; reflexivity).
  destruct (parse_sky_counts
              (set_sats_valid (count_flagged (sat_list 8 5))
                 (set_sats (length (sat_list 8 5)) init)) (mk_sky None))
    as [_ [_ H0]].
  cbn [fst]. rewrite (H0 eq_refl).
  repeat split; reflexivity.
Defined.

(** ** C7 *)

(** C7 (counterexample): a report without the [class] key makes
    [parse_packet] raise [KeyError]. *)
Lemma parse_packet_no_class_counterexample :
  parse_packet empty_packet init = (init, inl KeyError) /\
  snd (parse_packet empty_packet init) <> inr tt.
Proof. split; [reflexivity|discriminate]. Qed.

(** C7 (amended): a report whose [class] is a string other than POLL, TPV,
    SKY and ATT is ignored: no exception and [self] unchanged.  A report
    with no [class] key raises [KeyError], [self] unchanged. *)
Theorem parse_packet_unknown_class (g : GpsResponse) (p : packet) :
  (forall c, p_class p = Some c ->
     c <> "POLL" -> c <> "TPV" -> c <> "SKY" -> c <> "ATT" ->
     parse_packet p g = (g, inr tt)) /\
  (p_class p = None -> parse_packet p g = (g, inl KeyError)).
Proof.
  unfold parse_packet. pyunfold. split.
  - intros c -> H1 H2 H3 H4. cbn.
    destruct (String.eqb_spec c "POLL"); [contradiction|].
    destruct (String.eqb_spec c "TPV"); [contradiction|].
    destruct (String.eqb_spec c "SKY"); [contradiction|].
    destruct (String.eqb_spec c "ATT"); [contradiction|].
    reflexivity.
  - intros ->. reflexivity.
Qed.

Lemma parse_packet_unknown_class_witness :
  let p := Packet (Some "GST") None None None None None None None None None
             None None None None None None None None None None None None in
  parse_packet p init = (init, inr tt).
Proof.
  cbv zeta.
  apply (proj1 (parse_packet_unknown_class init
    (Packet (Some "GST") None None None None None None None None None
       None None None None None None None None None None None None)) "GST");
    (reflexivity || discriminate).
Defined.

(** ** C8 *)

Lemma run_reports_snoc a r :
  run_reports init (a ++ [r]) = apply_report (run_reports init a) r.
Proof. unfold run_reports. rewrite fold_left_app. reflexivity. Qed.

Lemma prefix_state_snoc a r g :
  ThreadedClient.prefix_state a g -> ThreadedClient.prefix_state (a ++ [r]) g.
Proof.
  intros (k & Hk & ->). exists k. split.
  - rewrite length_app. lia.
  - rewrite take_app_le by exact Hk. reflexivity.
Qed.

Lemma prefix_state_full a : ThreadedClient.prefix_state a (run_reports init a).
Proof. exists (length a). split; [lia|]. rewrite take_ge by lia. reflexivity. Qed.

Lemma inv_start : ThreadedClient.inv ThreadedClient.start.
Proof.
  unfold ThreadedClient.inv, ThreadedClient.start; cbn. split_and!.
  - split; [discriminate|]. intros (r & g0 & H). discriminate.
  - intros r g0 H. discriminate.
  - intros _. reflexivity.
  - constructor.
Qed.

Lemma inv_step c c' :
  ThreadedClient.step c c' -> ThreadedClient.inv c -> ThreadedClient.inv c'.
Proof.
  intros Hs (Hlw & Hg0 & Hgps & Hss).
  destruct Hs; unfold ThreadedClient.inv;
    cbn [ThreadedClient.lock ThreadedClient.writer ThreadedClient.gps
         ThreadedClient.applied ThreadedClient.snapshots] in *; split_and!.
  (* w_acquire *)
  - split; [intros _; eauto|reflexivity].
  - intros r' g0 [= <- <-]. apply Hgps. discriminate.
  - intros []. reflexivity.
  - exact Hss.
  (* w_mutate *)
  - split; [intros _; eauto|reflexivity].
  - exact Hg0.
  - intros []. reflexivity.
  - exact Hss.
  (* w_release *)
  - split; [discriminate|].
    intros (r' & g1 & H). destruct (snd (parse_packet r g0)); discriminate.
  - intros r' g1 H. destruct (snd (parse_packet r g0)); discriminate.
  - intros _. rewrite run_reports_snoc, <- (Hg0 r g0 eq_refl). reflexivity.
  - eapply Forall_impl; [exact Hss|]. intros s. apply prefix_state_snoc.
  (* w_stop *)
  - split; [|intros (r & g0 & H); discriminate].
    intros Hl. destruct (proj1 Hlw Hl) as (r & g0 & H). discriminate.
  - intros r g0 H. discriminate.
  - exact Hgps.
  - exact Hss.
  (* r_acquire *)
  - split; [discriminate|]. intros Hw. apply Hlw in Hw. discriminate.
  - exact Hg0.
  - intros _. apply Hgps. discriminate.
  - exact Hss.
  (* r_copy *)
  - exact Hlw.
  - exact Hg0.
  - exact Hgps.
  - apply Forall_app. split; [exact Hss|].
    apply Forall_singleton. rewrite (Hgps ltac:(discriminate)).
    apply prefix_state_full.
  (* r_release *)
  - split; [discriminate|]. intros Hw. apply Hlw in Hw. discriminate.
  - exact Hg0.
  - intros _. apply Hgps. discriminate.
  - exact Hss.
Qed.

Lemma inv_rtc c c' :
  rtc ThreadedClient.step c c' -> ThreadedClient.inv c -> ThreadedClient.inv c'.
Proof.
  induction 1 as [|x y z Hxy _ IH]; intros Hx; [exact Hx|].
  apply IH. exact (inv_step x y Hxy Hx).
Qed.

(** C8: in every interleaving of the [run] thread with [get_current]
    callers, each snapshot returned is the [GpsResponse] obtained by
    applying a complete prefix of the reports handed to [parse_packet], in
    order; a snapshot never shows a report half applied. *)
Theorem snapshot_prefix (c : ThreadedClient.client) :
  rtc ThreadedClient.step ThreadedClient.start c ->
  Forall (ThreadedClient.prefix_state (ThreadedClient.applied c))
    (ThreadedClient.snapshots c).
Proof.
  intros H. apply (inv_rtc _ _ H inv_start).
Qed.

(** A run: a caller snapshots, the thread applies a 3D report (passing
    through a half-applied state), and a caller snapshots again. *)
Lemma snapshot_prefix_witness :
  let r := mk_tpv 3 (Some 100%Q) None None None in
  let g1 := fst (parse_packet r init) in
  let c := ThreadedClient.Client g1 (Some (ThreadedClient.Reader 1))
             ThreadedClient.WIdle [r] [init; g1] in
  rtc ThreadedClient.step ThreadedClient.start c /\
  Forall (ThreadedClient.prefix_state (ThreadedClient.applied c))
    (ThreadedClient.snapshots c).
Proof.
  cbv zeta.
  assert (H : rtc ThreadedClient.step ThreadedClient.start
    (ThreadedClient.Client (fst (parse_packet (mk_tpv 3 (Some 100%Q) None None None) init))
       (Some (ThreadedClient.Reader 1)) ThreadedClient.WIdle
       [mk_tpv 3 (Some 100%Q) None None None]
       [init; fst (parse_packet (mk_tpv 3 (Some 100%Q) None None None) init)])).
  { unfold ThreadedClient.start.
    eapply rtc_l; [apply (ThreadedClient.r_acquire 0)|].
    eapply rtc_l; [apply (ThreadedClient.r_copy 0)|].
    eapply rtc_l; [apply (ThreadedClient.r_release 0)|].
    eapply rtc_l; [apply (ThreadedClient.w_acquire (mk_tpv 3 (Some 100%Q) None None None))|].
    eapply rtc_l; [apply (ThreadedClient.w_mutate _ _ _ (set_mode 3 init))|].
    eapply rtc_l; [apply ThreadedClient.w_release|].
    eapply rtc_l; [apply (ThreadedClient.r_acquire 1)|].
    eapply rtc_l; [apply (ThreadedClient.r_copy 1)|].
    apply rtc_refl. }
  split; [exact H|].
  exact (snapshot_prefix _ H).
Defined.

(** ** C9 *)

(** C9: [GpsResponse()] starts with an empty [error] dict, yet in every
    state reachable from it by [parse_packet] calls, a fix quality of 2D or
    better implies that [error] has all six keys c, s, t, v, x, y; so
    [speed_vertical()], [speed()] and [position_precision()] then return a
    value and never raise [KeyError]. *)
Theorem reachable_error_keys (g : GpsResponse) :
  error init = ∅ /\
  (reachable g -> 2 <= mode g ->
   Forall (fun k => is_Some (error g !! k)) error_keys /\
   (exists v, speed_vertical g = inr v) /\
   (exists v, speed g = inr v) /\
   (exists v, position_precision g = inr v)).
Proof.
  split; [reflexivity|]. intros Hr H2.
  pose proof (reachable_keys_ok g Hr H2) as Hk. split; [exact Hk|].
  unfold error_keys in Hk.
  inversion Hk as [|? ? [c Hc] Hk1]; subst.
  inversion Hk1 as [|? ? [s Hs] Hk2]; subst.
  inversion Hk2 as [|? ? _ Hk3]; subst.
  inversion Hk3 as [|? ? [v Hv] Hk4]; subst.
  inversion Hk4 as [|? ? [x Hx] Hk5]; subst.
  inversion Hk5 as [|? ? [y Hy] _]; subst.
  assert (E : (mode g <? 2) = false) by (apply Z.ltb_ge; lia).
  unfold speed_vertical, speed, position_precision, error_at.
  rewrite E, Hc, Hs, Hv, Hx, Hy.
  split; [|split];
    [destruct (py_lt (Qabs (climb g)) c)|destruct (py_lt (hspeed g) s)|];
    eexists; reflexivity.
Qed.

Lemma reachable_error_keys_witness :
  let g := run_reports init [mk_tpv 2 None None None None] in
  reachable g /\ 2 <= mode g /\ exists v, speed g = inr v.
Proof.
  cbv zeta.
  assert (Hr : reachable (run_reports init [mk_tpv 2 None None None None]))
    by (exists [mk_tpv 2 None None None None]; reflexivity).
  assert (H2 : 2 <= mode (run_reports init [mk_tpv 2 None None None None]))
    by (vm_compute; discriminate).
  split; [exact Hr|]. split; [exact H2|].
  exact (proj1 (proj2 (proj2 (proj2 (reachable_error_keys _) Hr H2)))).
Defined.

(** ** C10 *)

(** C10: in every state reached from [GpsResponse()] by [parse_packet]
    calls on reports whose SKY satellite entries all carry the [used] key,
    [sats_valid <= sats]. *)
Theorem sats_valid_le_sats (rs : list packet) :
  Forall flagged_report rs ->
  (sats_valid (run_reports init rs) <= sats (run_reports init rs))%nat.
Proof. apply run_reports_sats_ok. Qed.

Lemma sats_valid_le_sats_witness :
  let rs := [mk_sky (Some (sat_list 8 5)); mk_tpv 3 None None None None;
             mk_poll (Some true) (Some [mk_tpv 2 None None None None])
               (Some [mk_sky (Some (sat_list 4 4))])] in
  Forall flagged_report rs /\
  (sats_valid (run_reports init rs) <= sats (run_reports init rs))%nat.
Proof.
  cbv zeta.
  assert (H : Forall flagged_report
    [mk_sky (Some (sat_list 8 5)); mk_tpv 3 None None None None;
     mk_poll (Some true) (Some [mk_tpv 2 None None None None])
       (Some [mk_sky (Some (sat_list 4 4))])]).
  { repeat constructor; unfold sky_flagged; cbn; intros; try discriminate;
      repeat match goal with
             | H : Some _ = Some _ |- _ => injection H as <-
             | H : _ :: _ = _ :: _ |- _ => injection H as <- <-
             end;
      repeat constructor; try (eexists; reflexivity);
      intros l [= <-]; repeat constructor; eexists; reflexivity. }
  split; [exact H|]. exact (sats_valid_le_sats _ H).
Defined.

(** * Further properties of the code *)

(** ** Helpers about [parse_tpv] *)

Lemma parse_tpv_mode_ge2 p g m :
  p_mode p = Some m -> 2 <= m ->
  fst (parse_tpv p g) =
  if 3 <=? m then tpv_3d p (tpv_2d p (set_mode m g)) else tpv_2d p (set_mode m g).
Proof.
  intros Hm H2. rewrite parse_tpv_eq, Hm. cbn.
  assert (E2 : (2 <=? m) = true) by (apply Z.leb_le; lia).
  rewrite E2. reflexivity.
Qed.

Lemma error_after_2d p g m :
  2 <= m -> (3 <=? m) = false ->
  error (tpv_2d p (set_mode m g)) =
  error_dict 0 (default 0%Q (p_eps p)) (default 0%Q (p_ept p)) 0
    (default 0%Q (p_epx p)) (default 0%Q (p_epy p)).
Proof. reflexivity. Qed.

Lemma lookup_error_3d p g k :
  k <> "c" -> k <> "v" -> error (tpv_3d p g) !! k = error g !! k.
Proof.
  intros Hc Hv. cbn.
  rewrite lookup_insert_ne by congruence. rewrite lookup_insert_ne by congruence.
  reflexivity.
Qed.

Lemma error_dict_lookup c s t v x y :
  error_dict c s t v x y !! "c" = Some c /\ error_dict c s t v x y !! "s" = Some s /\
  error_dict c s t v x y !! "t" = Some t /\ error_dict c s t v x y !! "v" = Some v /\
  error_dict c s t v x y !! "x" = Some x /\ error_dict c s t v x y !! "y" = Some y.
Proof. split_and!; reflexivity. Qed.

Ltac tpv_fields :=
  unfold tpv_3d, tpv_2d, set_mode;
  cbn [mode sats sats_valid lon lat alt track hspeed climb time error
       heading pitch roll].

Lemma mode_ltb_false g : 2 <= mode g -> (mode g <? 2) = false.
Proof. intros H. apply Z.ltb_ge. lia. Qed.

(** ** X1: [position()] after a 2D-or-better report *)

(** A position/velocity report of mode 2 or more makes [position()] return
    the report's [(lat, lon)], 0 for an absent one, whatever the state
    before. *)
Theorem position_after_tpv (g : GpsResponse) (p : packet) (m : Z) :
  p_mode p = Some m -> 2 <= m ->
  position (fst (parse_tpv p g)) = inr (default 0%Q (p_lat p), default 0%Q (p_lon p)).
Proof.
  intros Hm H2. rewrite (parse_tpv_mode_ge2 p g m Hm H2).
  unfold position.
  destruct (3 <=? m); cbn; (replace (m <? 2) with false by (symmetry; apply Z.ltb_ge; lia));
    reflexivity.
Qed.

Lemma position_after_tpv_witness :
  position (fst (parse_tpv
    (Packet (Some "TPV") (Some 2) (Some 7%Q) (Some 45%Q) None None None None
       None None None None None None None None None None None None None None)
    init)) = inr (45%Q, 7%Q).
Proof.
  refine (position_after_tpv init
    (Packet (Some "TPV") (Some 2) (Some 7%Q) (Some 45%Q) None None None None
       None None None None None None None None None None None None None None)
    2 eq_refl _). lia.
Defined.

(** ** X2: a report below 2D *)

(** A position/velocity report of mode below 2 sets [mode] and nothing else:
    position, altitude, time and error margins keep their stale values, and
    every quality-gated accessor ([position], [altitude], [movement],
    [speed], [speed_vertical], [position_precision], [map_url],
    [get_time]) raises [NoFixError]. *)
Theorem low_mode_gates_accessors (g : GpsResponse) (p : packet) (m : Z)
    (str_float : Q -> string) {D : Type} (strptime : string -> option D)
    (now_iso : string) (local_time : bool) :
  p_mode p = Some m -> m < 2 ->
  let g' := fst (parse_tpv p g) in
  g' = set_mode m g /\
  position g' = inl NoFixError /\ altitude g' = inl NoFixError /\
  movement g' = inl NoFixError /\ speed g' = inl NoFixError /\
  speed_vertical g' = inl NoFixError /\ position_precision g' = inl NoFixError /\
  map_url str_float g' = inl NoFixError /\
  get_time strptime now_iso g' local_time = inl NoFixError.
Proof.
  intros Hm Hlt. cbv zeta. rewrite parse_tpv_eq, Hm. cbn.
  assert (E2 : (2 <=? m) = false) by (apply Z.leb_gt; lia).
  assert (E3 : (3 <=? m) = false) by (apply Z.leb_gt; lia).
  assert (L2 : (m <? 2) = true) by (apply Z.ltb_lt; lia).
  assert (L3 : (m <? 3) = true) by (apply Z.ltb_lt; lia).
  rewrite E2, E3.
  unfold position, altitude, movement, speed, speed_vertical,
    position_precision, map_url, get_time; cbn.
  rewrite L2, L3. split_and!; reflexivity.
Qed.

Lemma low_mode_gates_accessors_witness :
  position (fst (parse_tpv (mk_tpv 1 None None None None)
                  (fst (parse_tpv (mk_tpv 3 None None None None) init))))
  = inl NoFixError.
Proof.
  apply (low_mode_gates_accessors (fst (parse_tpv (mk_tpv 3 None None None None) init))
           (mk_tpv 1 None None None None) 1
           (fun _ => "") (fun _ : string => @None unit) "" false);
    [reflexivity|lia].
Defined.

(** ** X3: [speed()] after a 2D-or-better report *)

(** After a position/velocity report of mode 2 or more, [speed()] returns 0
    when the report's [speed] is below its [eps], and the report's [speed]
    otherwise (an absent field counting as 0). *)
Theorem speed_after_tpv (g : GpsResponse) (p : packet) (m : Z) :
  p_mode p = Some m -> 2 <= m ->
  speed (fst (parse_tpv p g)) =
  inr (if py_lt (default 0%Q (p_speed p)) (default 0%Q (p_eps p))
       then 0%Q else default 0%Q (p_speed p)).
Proof.
  intros Hm H2. rewrite (parse_tpv_mode_ge2 p g m Hm H2).
  unfold speed, error_at.
  destruct (3 <=? m); [rewrite lookup_error_3d by discriminate|];
    tpv_fields; rewrite (proj1 (proj2 (error_dict_lookup _ _ _ _ _ _)));
    (replace (m <? 2) with false by (symmetry; apply Z.ltb_ge; lia));
    destruct (py_lt _ _); reflexivity.
Qed.

Lemma speed_after_tpv_witness :
  speed (fst (parse_tpv
    (Packet (Some "TPV") (Some 3) None None None (Some (3 # 10)) None
       (Some (1 # 2)) None None None None None None None None None None None
       None None None) init)) = inr 0%Q.
Proof.
  refine (speed_after_tpv init
    (Packet (Some "TPV") (Some 3) None None None (Some (3 # 10)) None
       (Some (1 # 2)) None None None None None None None None None None None
       None None None) 3 eq_refl _). lia.
Defined.

(** ** X4: [position_precision()] after a report *)

(** After a report of mode exactly 2, [position_precision()] returns
    [(max(epx, epy), 0)]: the vertical error is 0, not the one of an
    earlier 3D report; after a report of mode 3 or more it returns
    [(max(epx, epy), epv)] (absent fields counting as 0). *)
Theorem position_precision_after_tpv (g : GpsResponse) (p : packet) (m : Z) :
  p_mode p = Some m -> 2 <= m ->
  position_precision (fst (parse_tpv p g)) =
  inr (py_max (default 0%Q (p_epx p)) (default 0%Q (p_epy p)),
       if 3 <=? m then default 0%Q (p_epv p) else 0%Q).
Proof.
  intros Hm H2. rewrite (parse_tpv_mode_ge2 p g m Hm H2).
  unfold position_precision, error_at.
  pose proof (error_dict_lookup 0%Q (default 0%Q (p_eps p)) (default 0%Q (p_ept p))
    0%Q (default 0%Q (p_epx p)) (default 0%Q (p_epy p))) as (_ & _ & _ & Hv & Hx & Hy).
  destruct (3 <=? m).
  - rewrite !lookup_error_3d by discriminate. tpv_fields.
    rewrite lookup_insert_eq, Hx, Hy.
    replace (m <? 2) with false by (symmetry; apply Z.ltb_ge; lia).
    reflexivity.
  - tpv_fields. rewrite Hx, Hy, Hv.
    replace (m <? 2) with false by (symmetry; apply Z.ltb_ge; lia).
    reflexivity.
Qed.

Lemma position_precision_after_tpv_witness :
  position_precision (fst (parse_tpv (mk_tpv 2 None None None (Some 5%Q))
    (fst (parse_tpv (mk_tpv 3 None None None (Some 4%Q)) init)))) = inr (0%Q, 0%Q).
Proof.
  refine (position_precision_after_tpv
    (fst (parse_tpv (mk_tpv 3 None None None (Some 4%Q)) init))
    (mk_tpv 2 None None None (Some 5%Q)) 2 eq_refl _). lia.
Defined.

(** ** X5: [speed_vertical()] after a 2D report *)

(** A report of mode exactly 2 sets the climb margin to 0 but keeps the
    stored [climb], so [speed_vertical()] then returns the [climb] of the
    last 3D report unclamped. *)
Theorem speed_vertical_after_2d (g : GpsResponse) (p : packet) :
  p_mode p = Some 2 ->
  speed_vertical (fst (parse_tpv p g)) = inr (climb g).
Proof.
  intros Hm. rewrite (parse_tpv_mode_ge2 p g 2 Hm ltac:(lia)). cbn.
  unfold speed_vertical, error_at. cbn.
  rewrite (proj1 (error_dict_lookup _ _ _ _ _ _)).
  unfold py_lt.
  replace (Qle_bool 0 (Qabs (climb g))) with true
    by (symmetry; apply Qle_bool_iff, Qabs_nonneg).
  reflexivity.
Qed.

Lemma speed_vertical_after_2d_witness :
  speed_vertical (fst (parse_tpv (mk_tpv 2 None None None None)
    (fst (parse_tpv (mk_tpv 3 None (Some (1 # 100)) (Some 1%Q) None) init))))
  = inr (1 # 100).
Proof.
  apply (speed_vertical_after_2d
    (fst (parse_tpv (mk_tpv 3 None (Some (1 # 100)) (Some 1%Q) None) init))
    (mk_tpv 2 None None None None)). reflexivity.
Defined.

(** ** X6: [get_time()] after a 2D-or-better report *)

(** After a report of mode 2 or more, [get_time(local_time=False)] depends
    on that report alone: without a [time] field (or with an empty one) it
    returns the current wall-clock time, even if an earlier report carried
    a timestamp; otherwise it returns the parsed timestamp, or raises
    [ValueError] when [strptime] rejects it. *)
Theorem get_time_after_tpv {D : Type} (strptime : string -> option D)
    (now_iso : string) (g : GpsResponse) (p : packet) (m : Z) :
  p_mode p = Some m -> 2 <= m ->
  get_time strptime now_iso (fst (parse_tpv p g)) false =
  match p_time p with
  | Some s =>
      if String.eqb s "" then inr (TvIso now_iso)
      else match strptime s with
           | None => inl ValueError
           | Some d => inr (TvDatetime d)
           end
  | None => inr (TvIso now_iso)
  end.
Proof.
  intros Hm H2. rewrite (parse_tpv_mode_ge2 p g m Hm H2).
  unfold get_time.
  destruct (3 <=? m); tpv_fields;
    (replace (m <? 2) with false by (symmetry; apply Z.ltb_ge; lia));
    destruct (p_time p) as [s|]; cbn; try reflexivity;
    destruct (String.eqb s ""); [reflexivity| |reflexivity|];
    destruct (strptime s); reflexivity.
Qed.

Lemma get_time_after_tpv_witness :
  get_time (fun _ : string => @None unit) "now"
    (fst (parse_tpv (mk_tpv 2 None None None None)
       (MkGpsResponse 2 0 0 0 0 0 0 0 0 "2024-01-01T00:00:00.000Z" ∅ 0 0 0)))
    false = inr (TvIso "now").
Proof.
  apply (get_time_after_tpv (fun _ : string => @None unit) "now"
    (MkGpsResponse 2 0 0 0 0 0 0 0 0 "2024-01-01T00:00:00.000Z" ∅ 0 0 0)
    (mk_tpv 2 None None None None) 2); [reflexivity|lia].
Defined.

(** ** X7: attitude reports *)

(** An ATT report never raises and, whatever the fix quality, sets
    [heading], [pitch] and [roll] (0 for an absent field), as
    [get_heading()], [get_pitch()], [get_roll()] then return, leaving every
    other field as it was. *)
Theorem parse_packet_att (g : GpsResponse) (p : packet) :
  p_class p = Some "ATT" ->
  let r := parse_packet p g in
  snd r = inr tt /\
  get_heading (fst r) = default 0%Q (p_heading p) /\
  get_pitch (fst r) = default 0%Q (p_pitch p) /\
  get_roll (fst r) = default 0%Q (p_roll p) /\
  fst r = MkGpsResponse (mode g) (sats g) (sats_valid g) (lon g) (lat g) (alt g)
            (track g) (hspeed g) (climb g) (time g) (error g)
            (get_heading (fst r)) (get_pitch (fst r)) (get_roll (fst r)).
Proof.
  intros Hc. cbv zeta. unfold parse_packet. pyunfold. rewrite Hc. cbn.
  split_and!; reflexivity.
Qed.

Lemma parse_packet_att_witness :
  get_heading (fst (parse_packet
    (Packet (Some "ATT") None None None None None None None None None None None
       None None None None (Some 90%Q) None None None None None) init)) = 90%Q.
Proof.
  refine (proj1 (proj2 (parse_packet_att init
    (Packet (Some "ATT") None None None None None None None None None None None
       None None None None (Some 90%Q) None None None None None) eq_refl))).
Defined.

(** ** Helpers: the effect of each parser and its exception *)

Lemma count_used_pure l g : count_used l g = (g, snd (count_used l init)).
Proof.
  induction l as [|[u] l IH] in g |- *; [reflexivity|].
  cbn. pyunfold. destruct u as [b|]; [|reflexivity]. cbn.
  rewrite (IH g), (IH init). cbn.
  destruct (snd (count_used l init)); reflexivity.
Qed.

Lemma parse_sky_pure s g :
  parse_sky s g =
  match p_satellites s with
  | None => (set_sats_valid 0 (set_sats 0 g), inr tt)
  | Some l =>
      match snd (count_used l init) with
      | inl e => (set_sats (length l) g, inl e)
      | inr n => (set_sats_valid n (set_sats (length l) g), inr tt)
      end
  end.
Proof.
  rewrite parse_sky_eq. destruct (p_satellites s) as [l|]; [|reflexivity].
  cbv zeta. rewrite count_used_pure. reflexivity.
Qed.

Lemma parse_tpv_sky_comm t s g :
  fst (parse_tpv t (fst (parse_sky s g))) = fst (parse_sky s (fst (parse_tpv t g))).
Proof.
  rewrite !parse_sky_pure, !parse_tpv_eq.
  destruct (p_mode t) as [m|], (p_satellites s) as [l|]; try reflexivity;
  [destruct (snd (count_used l init))|]; cbn [fst];
  destruct (2 <=? m), (3 <=? m); reflexivity.
Qed.

Lemma parse_att_eq a g :
  parse_att a g =
  (MkGpsResponse (mode g) (sats g) (sats_valid g) (lon g) (lat g) (alt g)
     (track g) (hspeed g) (climb g) (time g) (error g)
     (default 0%Q (p_heading a)) (default 0%Q (p_pitch a)) (default 0%Q (p_roll a)),
   inr tt).
Proof. reflexivity. Qed.

Lemma parse_tpv_att_comm t a g :
  fst (parse_tpv t (fst (parse_att a g))) = fst (parse_att a (fst (parse_tpv t g))).
Proof.
  rewrite !parse_att_eq, !parse_tpv_eq.
  destruct (p_mode t) as [m|]; [|reflexivity]. cbn [fst].
  destruct (2 <=? m), (3 <=? m); reflexivity.
Qed.

Lemma parse_sky_att_comm s a g :
  fst (parse_sky s (fst (parse_att a g))) = fst (parse_att a (fst (parse_sky s g))).
Proof.
  rewrite !parse_att_eq, !parse_sky_pure.
  destruct (p_satellites s) as [l|]; [|reflexivity].
  destruct (snd (count_used l init)); reflexivity.
Qed.

Lemma parse_tpv_snd t g : snd (parse_tpv t g) = snd (parse_tpv t init).
Proof. rewrite !parse_tpv_eq. destruct (p_mode t); reflexivity. Qed.

Lemma parse_sky_snd s g : snd (parse_sky s g) = snd (parse_sky s init).
Proof.
  rewrite !parse_sky_pure. destruct (p_satellites s) as [l|]; [|reflexivity].
  destruct (snd (count_used l init)); reflexivity.
Qed.

Lemma parse_tpv_idem t g : parse_tpv t (fst (parse_tpv t g)) = parse_tpv t g.
Proof.
  rewrite !parse_tpv_eq. destruct (p_mode t) as [m|] eqn:Hm; [|reflexivity].
  cbn [fst].
  destruct (2 <=? m) eqn:E2, (3 <=? m) eqn:E3; try reflexivity.
  apply Z.leb_gt in E2. apply Z.leb_le in E3. lia.
Qed.

Lemma parse_sky_idem s g : parse_sky s (fst (parse_sky s g)) = parse_sky s g.
Proof.
  rewrite !parse_sky_pure. destruct (p_satellites s) as [l|]; [|reflexivity].
  destruct (snd (count_used l init)); reflexivity.
Qed.

Lemma parse_poll_idem p g : parse_poll p (fst (parse_poll p g)) = parse_poll p g.
Proof.
  unfold parse_poll. pyunfold.
  destruct (p_active p) as [[]|]; cbn; try reflexivity.
  destruct (p_tpv p) as [ts|]; cbn; try reflexivity.
  destruct (last ts) as [t|]; cbn; try reflexivity.
  pose proof (parse_tpv_idem t g) as Hi.
  destruct (parse_tpv t g) as [g1 [e|[]]] eqn:E1; cbn in Hi |- *.
  - rewrite Hi. reflexivity.
  - destruct (p_sky p) as [ss|]; cbn; [|rewrite Hi; reflexivity].
    destruct (last ss) as [s|]; cbn; [|rewrite Hi; reflexivity].
    assert (Ht : parse_tpv t (fst (parse_sky s g1)) = (fst (parse_sky s g1), inr tt)).
    { rewrite (surjective_pairing (parse_tpv t (fst (parse_sky s g1)))).
      rewrite parse_tpv_sky_comm, Hi. cbn [fst].
      rewrite (parse_tpv_snd t (fst (parse_sky s g1))), <- (parse_tpv_snd t g), E1.
      reflexivity. }
    rewrite Ht. cbn. rewrite (parse_sky_idem s g1). reflexivity.
Qed.

(** ** X8: a report applied twice *)

(** Parsing the same report a second time, right after the first, changes
    nothing and raises exactly what the first time raised: [parse_packet]
    is idempotent, also when it stops half way with an exception. *)
Theorem parse_packet_idem p g :
  parse_packet p (fst (parse_packet p g)) = parse_packet p g.
Proof.
  unfold parse_packet. pyunfold.
  destruct (p_class p) as [c|]; cbn; [|reflexivity].
  destruct (String.eqb c "POLL"); [apply parse_poll_idem|].
  destruct (String.eqb c "TPV"); [apply parse_tpv_idem|].
  destruct (String.eqb c "SKY"); [apply parse_sky_idem|].
  destruct (String.eqb c "ATT"); reflexivity.
Qed.

Lemma parse_packet_snd p g : snd (parse_packet p g) = snd (parse_packet p init).
Proof.
  unfold parse_packet. pyunfold.
  destruct (p_class p) as [c|]; cbn; [|reflexivity].
  destruct (String.eqb c "POLL").
  - unfold parse_poll. pyunfold.
    destruct (p_active p) as [[]|]; cbn; try reflexivity.
    destruct (p_tpv p) as [ts|]; cbn; try reflexivity.
    destruct (last ts) as [t|]; cbn; try reflexivity.
    rewrite (surjective_pairing (parse_tpv t g)),
            (surjective_pairing (parse_tpv t init)), (parse_tpv_snd t g).
    destruct (snd (parse_tpv t init)) as [e|[]]; cbn; [reflexivity|].
    destruct (p_sky p) as [ss|]; cbn; try reflexivity.
    destruct (last ss) as [s|]; cbn; try reflexivity.
    rewrite (parse_sky_snd s (fst (parse_tpv t g))), (parse_sky_snd s (fst (parse_tpv t init))).
    reflexivity.
  - destruct (String.eqb c "TPV"); [apply parse_tpv_snd|].
    destruct (String.eqb c "SKY"); [apply parse_sky_snd|].
    destruct (String.eqb c "ATT"); reflexivity.
Qed.

Lemma parse_packet_tpv p : p_class p = Some "TPV" -> forall g, parse_packet p g = parse_tpv p g.
Proof. intros Hc g. unfold parse_packet. pyunfold. rewrite Hc. reflexivity. Qed.
Lemma parse_packet_sky p : p_class p = Some "SKY" -> forall g, parse_packet p g = parse_sky p g.
Proof. intros Hc g. unfold parse_packet. pyunfold. rewrite Hc. reflexivity. Qed.
Lemma parse_packet_att_eq p : p_class p = Some "ATT" -> forall g, parse_packet p g = parse_att p g.
Proof. intros Hc g. unfold parse_packet. pyunfold. rewrite Hc. reflexivity. Qed.
Lemma parse_packet_poll p : p_class p = Some "POLL" -> forall g, parse_packet p g = parse_poll p g.
Proof. intros Hc g. unfold parse_packet. pyunfold. rewrite Hc. reflexivity. Qed.

(** ** X9: TPV, SKY and ATT reports commute *)

(** Two reports of different classes among TPV, SKY and ATT leave the same
    object whichever is parsed first: each parser writes its own fields. *)
Theorem reports_commute g p q cp cq :
  p_class p = Some cp -> p_class q = Some cq ->
  In cp ["TPV"; "SKY"; "ATT"] -> In cq ["TPV"; "SKY"; "ATT"] -> cp <> cq ->
  apply_report (apply_report g p) q = apply_report (apply_report g q) p.
Proof.
  intros Hp Hq Ip Iq Hne. unfold apply_report.
  destruct Ip as [<-|[<-|[<-|[]]]], Iq as [<-|[<-|[<-|[]]]]; try congruence.
  - rewrite !(parse_packet_tpv p Hp), !(parse_packet_sky q Hq). symmetry. apply parse_tpv_sky_comm.
  - rewrite !(parse_packet_tpv p Hp), !(parse_packet_att_eq q Hq). symmetry. apply parse_tpv_att_comm.
  - rewrite !(parse_packet_sky p Hp), !(parse_packet_tpv q Hq). apply parse_tpv_sky_comm.
  - rewrite !(parse_packet_sky p Hp), !(parse_packet_att_eq q Hq). symmetry. apply parse_sky_att_comm.
  - rewrite !(parse_packet_att_eq p Hp), !(parse_packet_tpv q Hq). apply parse_tpv_att_comm.
  - rewrite !(parse_packet_att_eq p Hp), !(parse_packet_sky q Hq). apply parse_sky_att_comm.
Qed.
Lemma reports_commute_witness :
  apply_report (apply_report init (mk_tpv 3 (Some 12%Q) None None None)) (mk_sky (Some (sat_list 3 2)))
  = apply_report (apply_report init (mk_sky (Some (sat_list 3 2)))) (mk_tpv 3 (Some 12%Q) None None None).
Proof.
  apply (reports_commute init (mk_tpv 3 (Some 12%Q) None None None) (mk_sky (Some (sat_list 3 2)))
           "TPV" "SKY"); [reflexivity|reflexivity|cbn; auto|cbn; auto|discriminate].
Defined.

(** ** X10: whether a report raises does not depend on the object *)

(** [parse_packet] on any object raises exactly the exception that
    [from_json] raises on the same report, and returns normally exactly
    when [from_json] returns an object. *)
Theorem parse_packet_raises_as_from_json p g :
  snd (parse_packet p g) =
  match from_json p with inl e => inl e | inr _ => inr tt end.
Proof.
  rewrite parse_packet_snd. unfold from_json.
  destruct (parse_packet p init) as [g' [e|[]]]; reflexivity.
Qed.

(** ** X11: POLL reports with a missing key or an empty list *)

(** A POLL report without [active], or active without [tpv], raises
    [KeyError] and leaves the object as it was; with an empty [tpv] list it
    raises [IndexError], also leaving it; with a last TPV that has a mode but
    no [sky] key or an empty [sky] list, it applies that TPV and then raises
    [KeyError] or [IndexError], keeping the TPV's updates. *)
Theorem poll_missing_or_empty p g :
  p_class p = Some "POLL" ->
  (p_active p = None -> parse_packet p g = (g, inl KeyError)) /\
  (p_active p = Some true -> p_tpv p = None -> parse_packet p g = (g, inl KeyError)) /\
  (p_active p = Some true -> p_tpv p = Some [] -> parse_packet p g = (g, inl IndexError)) /\
  (forall ts t m, p_active p = Some true -> p_tpv p = Some ts -> last ts = Some t ->
     p_mode t = Some m ->
     (p_sky p = None -> parse_packet p g = (fst (parse_tpv t g), inl KeyError)) /\
     (p_sky p = Some [] -> parse_packet p g = (fst (parse_tpv t g), inl IndexError))).
Proof.
  intros Hc. rewrite !(parse_packet_poll p Hc). unfold parse_poll. pyunfold.
  split_and!.
  - intros Ha. rewrite Ha. reflexivity.
  - intros Ha Ht. rewrite Ha, Ht. reflexivity.
  - intros Ha Ht. rewrite Ha, Ht. reflexivity.
  - intros ts t m Ha Ht Hl Hm. rewrite Ha, Ht. cbn. rewrite Hl. pyunfold.
    pose proof (parse_tpv_snd t g) as Hsnd.
    destruct (parse_tpv t g) as [g1 r] eqn:E. cbn in Hsnd |- *.
    replace r with (inr tt : exn + unit)
      by (rewrite Hsnd, parse_tpv_eq, Hm; cbn; destruct (2 <=? m), (3 <=? m); reflexivity).
    split; intros Hs; rewrite Hs; reflexivity.
Qed.
Lemma poll_missing_or_empty_witness :
  parse_packet (mk_poll (Some true) (Some [mk_tpv 3 (Some 12%Q) None None None]) (Some [])) init
  = (fst (parse_tpv (mk_tpv 3 (Some 12%Q) None None None) init), inl IndexError).
Proof.
  refine (proj2 ((proj2 (proj2 (proj2 (poll_missing_or_empty
    (mk_poll (Some true) (Some [mk_tpv 3 (Some 12%Q) None None None]) (Some [])) init
    eq_refl))))
    [mk_tpv 3 (Some 12%Q) None None None] (mk_tpv 3 (Some 12%Q) None None None) 3
    eq_refl eq_refl eq_refl eq_refl) eq_refl).
Defined.

(** ** X12: [__repr__] after a report of any mode *)

Lemma parse_tpv_mode t g m : p_mode t = Some m -> mode (fst (parse_tpv t g)) = m.
Proof.
  intros Hm. rewrite parse_tpv_eq, Hm. cbn.
  destruct (2 <=? m), (3 <=? m); reflexivity.
Qed.

(** After a TPV report of mode [m], [__repr__] raises [KeyError] when
    [m < 0], returns [None] (no string) when [m > 3], and returns a string
    for [m] in 0..3. *)
Theorem repr_after_tpv (str_float : Q -> string) g t m :
  p_mode t = Some m ->
  (m < 0 -> py_repr str_float (fst (parse_tpv t g)) = inl KeyError) /\
  (3 < m -> py_repr str_float (fst (parse_tpv t g)) = inr None) /\
  (0 <= m <= 3 -> exists s, py_repr str_float (fst (parse_tpv t g)) = inr (Some s)).
Proof.
  intros Hm. unfold py_repr. rewrite (parse_tpv_mode t g m Hm).
  split_and!.
  - intros Hlt. destruct m as [|q|q]; try lia. reflexivity.
  - intros Hgt.
    replace (m <? 2) with false by (symmetry; apply Z.ltb_ge; lia).
    replace (m =? 2) with false by (symmetry; apply Z.eqb_neq; lia).
    replace (m =? 3) with false by (symmetry; apply Z.eqb_neq; lia).
    reflexivity.
  - intros Hr. assert (m = 0 \/ m = 1 \/ m = 2 \/ m = 3) as [-> | [-> | [-> | ->]]] by lia;
      cbn; eexists; reflexivity.
Qed.
Lemma repr_after_tpv_witness :
  py_repr (fun _ => "") (fst (parse_tpv (mk_tpv (-1) None None None None) init)) = inl KeyError.
Proof.
  refine (proj1 (repr_after_tpv (fun _ => "") init (mk_tpv (-1) None None None None) (-1)
    eq_refl) _). lia.
Defined.

(** ** X13: [ThreadedClient] after [run] has returned *)


(** ** X14: [run] on a stream in two parts *)


(** ** X15: the object while [run] is still running *)

(** While [run] has not left, its object is the one obtained by parsing the
    stream's reports in order; refused connections that reconnect have no
    effect on it. *)
Theorem run_loop_waiting g evs :
  snd (run_loop g evs) = RunWaiting ->
  fst (run_loop g evs) = run_reports g (reports_of evs).
Proof.
  induction evs as [|[p|[]] evs IH] in g |- *; cbn; intros H.
  - reflexivity.
  - destruct (parse_packet p g) as [g' [e|u]] eqn:E; [discriminate|].
    unfold run_reports. cbn [fold_left]. unfold apply_report at 2. rewrite E.
    apply IH, H.
  - apply IH, H.
  - discriminate.
Qed.
Lemma run_loop_waiting_witness :
  fst (run_loop init [SReport (mk_tpv 3 (Some 12%Q) None None None); SRefused true;
                      SReport (mk_sky (Some (sat_list 4 2)))])
  = run_reports init [mk_tpv 3 (Some 12%Q) None None None; mk_sky (Some (sat_list 4 2))].
Proof.
  apply (run_loop_waiting init [SReport (mk_tpv 3 (Some 12%Q) None None None); SRefused true;
                      SReport (mk_sky (Some (sat_list 4 2)))]).
  reflexivity.
Defined.

(** ** X16: [map_url()] after a 2D-or-better report *)

(** After a TPV report of mode 2 or more, [map_url()] returns the
    OpenStreetMap URL for the report's [lat] and [lon] (0 for an absent
    one), whatever the state before. *)
Theorem map_url_after_tpv (str_float : Q -> string) g t m :
  p_mode t = Some m -> 2 <= m ->
  map_url str_float (fst (parse_tpv t g)) =
  inr (String.append "http://www.openstreetmap.org/?mlat="
        (String.append (str_float (default 0%Q (p_lat t)))
          (String.append "&mlon="
            (String.append (str_float (default 0%Q (p_lon t))) "&zoom=15")))).
Proof.
  intros Hm H2. rewrite (parse_tpv_mode_ge2 t g m Hm H2).
  unfold map_url.
  destruct (3 <=? m); cbn; (replace (m <? 2) with false by (symmetry; apply Z.ltb_ge; lia));
    reflexivity.
Qed.
Lemma map_url_after_tpv_witness :
  map_url (fun q => if Qeq_bool q 45 then "45.0" else "7.0")
    (fst (parse_tpv
      (Packet (Some "TPV") (Some 2) (Some 7%Q) (Some 45%Q) None None None None
         None None None None None None None None None None None None None None)
      init))
  = inr "http://www.openstreetmap.org/?mlat=45.0&mlon=7.0&zoom=15".
Proof.
  refine (map_url_after_tpv (fun q => if Qeq_bool q 45 then "45.0" else "7.0") init
    (Packet (Some "TPV") (Some 2) (Some 7%Q) (Some 45%Q) None None None None
       None None None None None None None None None None None None None None)
    2 eq_refl _). lia.
Defined.
